(** * Generic repository over a storage-collection handle

    Shallow embedding of [src/lib/repositories/base/repository.ts]: the
    abstract class [Repository<T, K>] and its seven operations.

    The repository is a stateless facade over an external handle (a mongoose
    [Model]).  Each [await model.....exec()] of the source is one request to
    that handle, so an operation is embedded as a small program whose only
    effects are: returning, throwing, and awaiting a storage request.  A run
    of a program against an engine yields the outcome, the engine's final
    state and the list of requests that were issued, in order.

    JavaScript numbers are embedded as [Z] (limits and pages are integers in
    every use of the source); floating point values are outside the model. *)

From Stdlib Require Import ZArith List String Bool Lia.
Import ListNotations.
Local Open Scope string_scope.
Local Open Scope list_scope.
Local Open Scope Z_scope.
Set Warnings "-register-all".

(** ** JavaScript values *)

Module JS.

(** The values a caller can hand to [create(data: K)] at run time. *)
Inductive value : Type :=
| Undefined
| Null
| Bool (b : bool)
| Num (z : Z)
| Str (s : string)
| Obj (fields : list (string * value)).

(** [!!v]: the falsy values are [undefined], [null], [false], [0] and the
    empty string; every object, the empty one included, is truthy. *)
Definition truthy (v : value) : bool :=
  match v with
  | Undefined | Null => false
  | Bool b => b
  | Num z => negb (z =? 0)
  | Str s => negb (s =? "")%string
  | Obj _ => true
  end.

(** [!!id] for [id: string]. *)
Definition truthy_string (s : string) : bool := negb (s =? "")%string.

End JS.

(** ** Data model *)

(** [interface Projection { [key: string]: 1 | 0 }]: [true] is [1]. *)
Definition Projection : Type := list (string * bool).

Inductive direction : Type := Asc (* 1 *) | Desc (* -1 *).

(** [interface Sort { [key: string]: 1 | -1 }]; key order is significant. *)
Definition Sort : Type := list (string * direction).

(** A stored record: its identifier and its other fields. *)
Record doc : Type := mkDoc { doc_id : string; doc_fields : list (string * JS.value) }.

(** [Query<T> = FilterQuery<T>].  The repository builds two filters itself,
    [{}] and [{_id: {$in: ids}}]; every other filter is the caller's and is
    passed through unmodified. *)
Inductive filter : Type :=
| FEmpty
| FIdIn (ids : list string)
| FWhere (p : doc -> bool).

(** The query object returned by [model.find(filter, projection)] and
    updated by [query.sort], [query.skip] and [query.limit]. *)
Record query : Type := mkQuery {
  q_filter : filter;
  q_projection : option Projection;
  q_sort : option Sort;
  q_skip : option Z;
  q_limit : option Z
}.

Definition model_find (f : filter) (p : option Projection) : query :=
  mkQuery f p None None None.

Definition query_sort (s : Sort) (q : query) : query :=
  mkQuery (q_filter q) (q_projection q) (Some s) (q_skip q) (q_limit q).

Definition query_skip (n : Z) (q : query) : query :=
  mkQuery (q_filter q) (q_projection q) (q_sort q) (Some n) (q_limit q).

Definition query_limit (n : Z) (q : query) : query :=
  mkQuery (q_filter q) (q_projection q) (q_sort q) (q_skip q) (Some n).

(** ** Errors *)

(** What a repository call can fail with: [new Error(msg)] thrown by the
    repository itself, or a rejection of the storage engine, which no
    operation catches. *)
Inductive error : Type :=
| Error (msg : string)
| Rejected (reason : string).

Inductive error_kind : Type := InvalidArgument | NotImplemented | StorageFailure.

(** Modelled from the spec: the error taxonomy (InvalidArgument,
    NotImplemented, StorageFailure) is the specification's; the source only
    has the three messages below, which are mapped to it here. *)
Definition kind_of (e : error) : option error_kind :=
  match e with
  | Rejected _ => Some StorageFailure
  | Error msg =>
      if (msg =? "Invalid Id")%string then Some InvalidArgument
      else if (msg =? "Empty object provided")%string then Some InvalidArgument
      else if (msg =? "Method not implemented.")%string then Some NotImplemented
      else None
  end.

(** ** Programs over the storage handle *)

(** The requests the source sends to [this.model], indexed by what the
    awaited promise resolves to. *)
Inductive request : Type -> Type :=
| FindById (id : string) (projection : Projection) : request (option doc)
| Exec (q : query) : request (list doc)
| Create (data : JS.value) : request doc
| FindByIdAndRemove (id : string) : request (option doc)
| DeleteMany (f : filter) : request unit.

Inductive prog (A : Type) : Type :=
| Ret (a : A)
| Throw (e : error)
| Await {X : Type} (r : request X) (k : X -> prog A).

Arguments Ret {A} a.
Arguments Throw {A} e.
Arguments Await {A X} r k.

Notation "'let!' x ':=' r 'in' k" := (Await r (fun x => k))
  (at level 10, x pattern, r at level 100, k at level 200).

(** Sequencing: the rest of an [async] body runs after what precedes it has
    returned; a throw or a rejected request skips it. *)
Fixpoint bind {A B : Type} (p : prog A) (k : A -> prog B) : prog B :=
  match p with
  | Ret a => k a
  | Throw e => Throw e
  | Await r k' => Await r (fun x => bind (k' x) k)
  end.

Notation "p ;; q" := (bind p (fun _ => q))
  (at level 61, right associativity).

Inductive event : Type :=
| Issued {X : Type} (r : request X).

Inductive outcome (A : Type) : Type :=
| Ok (a : A)
| Failed (e : error).

Arguments Ok {A} a.
Arguments Failed {A} e.

(** A storage engine: how each request is answered in a given state.  A
    rejected request carries the engine's reason. *)
Record engine (S : Type) : Type := mkEngine {
  handle : forall X : Type, request X -> S -> (string + X) * S
}.

Arguments handle {S} e {X} r s.

(** Running a program: an awaited request that is rejected ends the call
    with that rejection (no operation of the source has a [try]). *)
Fixpoint run {S A : Type} (E : engine S) (p : prog A) (s : S)
  : outcome A * S * list event :=
  match p with
  | Ret a => (Ok a, s, [])
  | Throw e => (Failed e, s, [])
  | Await r k =>
      match handle E r s with
      | (inl why, s') => (Failed (Rejected why), s', [Issued r])
      | (inr x, s') =>
          let '(o, s'', tr) := run E (k x) s' in (o, s'', Issued r :: tr)
      end
  end.

Definition result_of {S A : Type} (r : outcome A * S * list event) : outcome A :=
  fst (fst r).
Definition state_of {S A : Type} (r : outcome A * S * list event) : S :=
  snd (fst r).
Definition trace_of {S A : Type} (r : outcome A * S * list event) : list event :=
  snd r.

(** Number of requests a run sent to the storage engine. *)
Definition round_trips {S A : Type} (r : outcome A * S * list event) : nat :=
  List.length (trace_of r).

(** ** The repository *)

Module Repository.
Section Repository.

(** [Types.ObjectId.isValid], the identifier-format validator of the
    storage engine. *)
Variable isValid : string -> bool.

(** [!id || !Types.ObjectId.isValid(id)] *)
Definition bad_id (id : string) : bool :=
  negb (JS.truthy_string id) || negb (isValid id).

(** Parameter defaults: [x = d] takes [d] when the argument is absent. *)
Definition default {A : Type} (d : A) (arg : option A) : A :=
  match arg with Some a => a | None => d end.

Definition get (id : string) (projection : option Projection) : prog (option doc) :=
  let projection := default [] projection in
  if bad_id id then Throw (Error "Invalid Id")
  else
    let! d := FindById id projection in
    Ret d.

Definition getAll (limit page : option Z) (sort : option Sort)
           (projection : option Projection) : prog (list doc) :=
  let limit := default 20 limit in
  let page := default 1 page in
  let projection := default [] projection in
  let query := model_find FEmpty (Some projection) in
  let query := match sort with Some s => query_sort s query | None => query end in
  let query :=
    if page >? 0 then
      let skip := limit * (page - 1) in
      query_skip skip query
    else query in
  let query := query_limit limit query in
  let! docs := Exec query in
  Ret docs.

(** The third argument of [find] is declared [number | Projection] by the
    overload signature and used as [page] by the implementation. *)
Inductive find_arg : Type :=
| ArgNum (n : Z)
| ArgProjection (p : Projection).

(** [page > 0]: an object compares as [NaN], so the test is false. *)
Definition arg_gt0 (a : find_arg) : bool :=
  match a with ArgNum n => n >? 0 | ArgProjection _ => false end.

(** [page - 1] is only evaluated under [page > 0], hence on a number. *)
Definition arg_num (a : find_arg) : Z :=
  match a with ArgNum n => n | ArgProjection _ => 0 end.

Definition find (f : filter) (limit : option Z) (page : option find_arg)
           (sort : option Sort) (projection : option Projection) : prog (list doc) :=
  let limit := default 10 limit in
  let page := default (ArgNum 0) page in
  let query := model_find f projection in
  let query := match sort with Some s => query_sort s query | None => query end in
  let query :=
    if arg_gt0 page then
      let skip := limit * (arg_num page - 1) in
      query_skip skip query
    else query in
  let query := query_limit limit query in
  let! docs := Exec query in
  Ret docs.

Definition create (data : JS.value) : prog doc :=
  if negb (JS.truthy data) then Throw (Error "Empty object provided")
  else
    let! d := Create data in
    Ret d.

Definition createMany (_data : list JS.value) : prog (list doc) :=
  Throw (Error "Method not implemented.").

Definition remove (id : string) : prog unit :=
  if bad_id id then Throw (Error "Invalid Id")
  else
    let! _ := FindByIdAndRemove id in
    Ret tt.

(** [ids?: string[]]: [None] is the absent argument, for which
    [Array.isArray(ids)] is false. *)
Definition isArray (ids : option (list string)) : bool :=
  match ids with Some _ => true | None => false end.

Definition ids_length (ids : option (list string)) : Z :=
  Z.of_nat (List.length (default [] ids)).

Definition removeMany (ids : option (list string)) : prog unit :=
  (if isArray ids && (ids_length ids >? 0) then
     let! _ := DeleteMany (FIdIn (default [] ids)) in
     Ret tt
   else Ret tt) ;;
  let! _ := DeleteMany FEmpty in
  Ret tt.

End Repository.
End Repository.

(** ** An in-memory storage engine *)

Module Memory.
Section Memory.

(** What the engine does with a projection, with a sort specification, and
    how it assigns identifiers are its own business. *)
Variable project : Projection -> doc -> doc.
Variable order_by : Sort -> list doc -> list doc.
Variable gen_id : list doc -> string.

(** A failure the engine is about to report: its reason, and, for a bulk
    write, the targeted records it had already deleted when it failed. *)
Record fault : Type := mkFault { why : string; deleted : doc -> bool }.

(** The collection, and for each coming request whether it will fail;
    requests beyond the end of [faults] are served normally. *)
Record store : Type := mkStore { records : list doc; faults : list (option fault) }.

Definition matches (f : filter) (d : doc) : bool :=
  match f with
  | FEmpty => true
  | FIdIn ids => existsb (String.eqb (doc_id d)) ids
  | FWhere p => p d
  end.

Definition has_id (id : string) (d : doc) : bool := (doc_id d =? id)%string.

Fixpoint remove_first (id : string) (l : list doc) : list doc :=
  match l with
  | [] => []
  | d :: l' => if has_id id d then l' else d :: remove_first id l'
  end.

Definition sorted (s : option Sort) (l : list doc) : list doc :=
  match s with Some s => order_by s l | None => l end.

Definition skipped (n : option Z) (l : list doc) : list doc :=
  match n with Some k => skipn (Z.to_nat k) l | None => l end.

(** A limit of [0] is no limit; a negative limit counts as its absolute
    value. *)
Definition limited (n : option Z) (l : list doc) : list doc :=
  match n with
  | Some k => if k =? 0 then l else firstn (Z.abs_nat k) l
  | None => l
  end.

Definition projected (p : option Projection) (l : list doc) : list doc :=
  match p with Some p => map (project p) l | None => l end.

(** Filter, then sort, then skip, then limit, then project. *)
Definition select (q : query) (l : list doc) : list doc :=
  projected (q_projection q)
    (limited (q_limit q)
       (skipped (q_skip q)
          (sorted (q_sort q) (List.filter (matches (q_filter q)) l)))).

Definition negative (n : option Z) : bool :=
  match n with Some k => k <? 0 | None => false end.

(** Modelled from the spec: the storage-collection handle is an external
    collaborator (a mongoose [Model]); this is the capability set of the
    specification's section 6 (point lookup, filtered, sorted and paginated
    scan, single insert, point delete, bulk delete) over a list of records.
    Absence of a record is answered with [None], never with a rejection. *)
Definition serve {X : Type} (r : request X) (l : list doc) : (string + X) * list doc :=
  match r in request X return (string + X) * list doc with
  | FindById id p => (inr (option_map (project p) (List.find (has_id id) l)), l)
  | Exec q =>
      if negative (q_skip q) then (inl "BadValue", l)
      else (inr (select q l), l)
  | Create data =>
      match data with
      | JS.Obj fields =>
          let d := mkDoc (gen_id l) fields in (inr d, l ++ [d])
      | _ => (inl "ObjectParameterError", l)
      end
  | FindByIdAndRemove id => (inr (List.find (has_id id) l), remove_first id l)
  | DeleteMany f => (inr tt, List.filter (fun d => negb (matches f d)) l)
  end.

(** A failing request is rejected.  A failing bulk delete may already have
    deleted some of the records it targeted; any other failing request
    leaves the collection as it was. *)
Definition abort {X : Type} (r : request X) (ft : fault) (l : list doc) : list doc :=
  match r with
  | DeleteMany f => List.filter (fun d => negb (matches f d && deleted ft d)) l
  | _ => l
  end.

Definition mem_handle (X : Type) (r : request X) (s : store) : (string + X) * store :=
  match faults s with
  | Some ft :: later => (inl (why ft), mkStore (abort r ft (records s)) later)
  | None :: later => let (a, l) := serve r (records s) in (a, mkStore l later)
  | [] => let (a, l) := serve r (records s) in (a, mkStore l [])
  end.

Definition mem : engine store := mkEngine store mem_handle.

(** A store whose next [n] requests, at least, are served normally. *)
Fixpoint healthy (n : nat) (fs : list (option fault)) : bool :=
  match n, fs with
  | O, _ => true
  | S _, [] => true
  | S n', None :: fs' => healthy n' fs'
  | S _, Some _ :: _ => false
  end.

End Memory.
End Memory.

(** bson's [ObjectId.isValid] on strings: twelve characters, or twenty-four
    hexadecimal digits.  Used to evaluate the operations on concrete
    identifiers. *)
Definition is_hex (c : Ascii.ascii) : bool :=
  let n := Ascii.nat_of_ascii c in
  ((48 <=? n) && (n <=? 57) || (65 <=? n) && (n <=? 70) || (97 <=? n) && (n <=? 102))%nat.

Definition objectid_isValid (s : string) : bool :=
  let cs := list_ascii_of_string s in
  (List.length cs =? 12)%nat || ((List.length cs =? 24)%nat && forallb is_hex cs).

(** The requests [removeMany] sends when all of them are served. *)
Definition removeMany_requests (ids : option (list string)) : list event :=
  match ids with
  | Some (id :: l) => [Issued (DeleteMany (FIdIn (id :: l))); Issued (DeleteMany FEmpty)]
  | _ => [Issued (DeleteMany FEmpty)]
  end.

(** ** Concrete data for evaluating the operations *)

Module Sample.

Definition id1 : string := "64a000000000000000000001".
Definition id2 : string := "64a000000000000000000002".
Definition id3 : string := "64a000000000000000000003".
Definition id4 : string := "64a000000000000000000004".
Definition id5 : string := "64a000000000000000000005".
Definition id9 : string := "64a000000000000000000009".

Definition named (id name : string) : doc := mkDoc id [("name", JS.Str name)].

Definition r1 : doc := named id1 "ada".
Definition r2 : doc := named id2 "bob".
Definition r3 : doc := named id3 "cy".
Definition r4 : doc := named id4 "dee".
Definition r5 : doc := named id5 "eve".

Definition five : list doc := [r1; r2; r3; r4; r5].

(** An engine that returns whole records, in stored order. *)
Definition whole (_ : Projection) (d : doc) : doc := d.
Definition stored_order (_ : Sort) (l : list doc) : list doc := l.
Definition next_id (_ : list doc) : string := id9.

Definition db : engine (Memory.store) := Memory.mem whole stored_order next_id.

Definition up (l : list doc) : Memory.store := Memory.mkStore l [].

Definition down_at_once (l : list doc) (lost : doc -> bool) : Memory.store :=
  Memory.mkStore l [Some (Memory.mkFault "connection lost" lost)].

End Sample.

(** ** Observations on request traces *)

(** Requests that can change the collection. *)
Definition writes (e : event) : bool :=
  match e with
  | Issued r =>
      match r with
      | Create _ | FindByIdAndRemove _ | DeleteMany _ => true
      | FindById _ _ | Exec _ => false
      end
  end.

(** The identifiers a request carries on behalf of the repository. *)
Definition ids_sent (e : event) : list string :=
  match e with
  | Issued r =>
      match r with
      | FindById id _ => [id]
      | FindByIdAndRemove id => [id]
      | DeleteMany (FIdIn ids) => ids
      | _ => []
      end
  end.

(** Every identifier sent in a trace passes the guard of [get] and
    [remove]. *)
Definition only_valid_ids (isValid : string -> bool) (tr : list event) : bool :=
  forallb (fun e => forallb (fun id => negb (Repository.bad_id isValid id)) (ids_sent e)) tr.

(** The records of a listing, none for a failed one. *)
Definition docs_of (o : outcome (list doc)) : list doc :=
  match o with Ok l => l | Failed _ => [] end.

(** Pages [1] to [n] of [getAll], each fetched from the same state, one
    after the other. *)
Definition pages_upto {S : Type} (E : engine S) (s : S) (limit : Z)
           (sort : option Sort) (p : option Projection) (n : nat) : list doc :=
  flat_map
    (fun k => docs_of (result_of
                (run E (Repository.getAll (Some limit) (Some (Z.of_nat k)) sort p) s)))
    (seq 1 n).



(** * Properties *)

Import Repository.

(** ** The shape of each operation *)

Section Shapes.

Variable isValid : string -> bool.

Lemma bad_id_empty : bad_id isValid "" = true.
Proof. reflexivity. Qed.

Lemma bad_id_invalid (id : string) : isValid id = false -> bad_id isValid id = true.
Proof. unfold bad_id. intros ->. apply orb_true_r. Qed.

Lemma bad_id_false (id : string) :
  id <> "" -> isValid id = true -> bad_id isValid id = false.
Proof.
  intros Hne Hv. unfold bad_id, JS.truthy_string. rewrite Hv.
  destruct (String.eqb_spec id "") as [->|_]; [contradiction|reflexivity].
Qed.

Lemma get_invalid (id : string) (p : option Projection) :
  bad_id isValid id = true -> get isValid id p = Throw (Error "Invalid Id").
Proof. unfold get. now intros ->. Qed.

Lemma get_valid (id : string) (p : option Projection) :
  bad_id isValid id = false ->
  get isValid id p = Await (FindById id (default [] p)) Ret.
Proof. unfold get. now intros ->. Qed.

Lemma remove_invalid (id : string) :
  bad_id isValid id = true -> remove isValid id = Throw (Error "Invalid Id").
Proof. unfold remove. now intros ->. Qed.

Lemma remove_valid (id : string) :
  bad_id isValid id = false ->
  remove isValid id = Await (FindByIdAndRemove id) (fun _ => Ret tt).
Proof. unfold remove. now intros ->. Qed.

End Shapes.

Lemma removeMany_targeted (id : string) (ids : list string) :
  removeMany (Some (id :: ids)) =
  Await (DeleteMany (FIdIn (id :: ids)))
        (fun _ => Await (DeleteMany FEmpty) (fun _ => Ret tt)).
Proof. reflexivity. Qed.

Lemma removeMany_blanket (ids : option (list string)) :
  ids = None \/ ids = Some [] ->
  removeMany ids = Await (DeleteMany FEmpty) (fun _ => Ret tt).
Proof. now intros [-> | ->]. Qed.

Lemma create_falsy (data : JS.value) :
  JS.truthy data = false -> create data = Throw (Error "Empty object provided").
Proof. unfold create. now intros ->. Qed.

Lemma create_truthy (data : JS.value) :
  JS.truthy data = true -> create data = Await (Create data) Ret.
Proof. unfold create. now intros ->. Qed.

(** The query each listing operation sends, by the sign of [page]. *)
Lemma getAll_paged (limit page : Z) (sort : option Sort) (p : option Projection) :
  page > 0 ->
  getAll (Some limit) (Some page) sort p =
  Await (Exec (mkQuery FEmpty (Some (default [] p)) sort
                 (Some (limit * (page - 1))) (Some limit))) Ret.
Proof.
  intros Hp. unfold getAll. cbn [default].
  replace (page >? 0) with true by (symmetry; apply Z.gtb_lt; lia).
  now destruct sort.
Qed.

Lemma getAll_unpaged (limit page : Z) (sort : option Sort) (p : option Projection) :
  page <= 0 ->
  getAll (Some limit) (Some page) sort p =
  Await (Exec (mkQuery FEmpty (Some (default [] p)) sort None (Some limit))) Ret.
Proof.
  intros Hp. unfold getAll. cbn [default].
  replace (page >? 0) with false by (symmetry; rewrite Z.gtb_ltb; apply Z.ltb_ge; lia).
  now destruct sort.
Qed.

Lemma find_paged (f : filter) (limit page : Z) (sort : option Sort)
      (p : option Projection) :
  page > 0 ->
  find f (Some limit) (Some (ArgNum page)) sort p =
  Await (Exec (mkQuery f p sort (Some (limit * (page - 1))) (Some limit))) Ret.
Proof.
  intros Hp. unfold find. cbn [default arg_gt0 arg_num].
  replace (page >? 0) with true by (symmetry; apply Z.gtb_lt; lia).
  now destruct sort.
Qed.

Lemma find_unpaged (f : filter) (limit page : Z) (sort : option Sort)
      (p : option Projection) :
  page <= 0 ->
  find f (Some limit) (Some (ArgNum page)) sort p =
  Await (Exec (mkQuery f p sort None (Some limit))) Ret.
Proof.
  intros Hp. unfold find. cbn [default arg_gt0 arg_num].
  replace (page >? 0) with false by (symmetry; rewrite Z.gtb_ltb; apply Z.ltb_ge; lia).
  now destruct sort.
Qed.

(** ** Runs against an arbitrary engine *)

Section AnyEngine.

Context {S : Type} (E : engine S).

Lemma run_throw {A : Type} (e : error) (s : S) :
  run E (@Throw A e) s = (Failed e, s, []).
Proof. reflexivity. Qed.

Lemma run_await_rejected {A X : Type} (r : request X) (k : X -> prog A)
      (s s' : S) (reason : string) :
  handle E r s = (inl reason, s') ->
  run E (Await r k) s = (Failed (Rejected reason), s', [Issued r]).
Proof. cbn. now intros ->. Qed.

(** One awaited request followed by a plain return is one round trip. *)
Lemma single_request_round_trips {A X : Type} (r : request X) (k : X -> A) (s : S) :
  round_trips (run E (Await r (fun x => Ret (k x))) s) = 1%nat.
Proof.
  unfold round_trips, trace_of. cbn.
  now destruct (handle E r s) as [[reason | x] s'].
Qed.

End AnyEngine.

(** ** Identifier validation and argument checks *)

(** C8: [get] and [remove] called with an invalid identifier (the empty
    string, or one the validator refuses) fail with [Error('Invalid Id')],
    an InvalidArgument, without any request to the storage handle and
    without any change of the engine's state. *)
Theorem get_remove_reject_invalid_id
        {S : Type} (E : engine S) (isValid : string -> bool)
        (id : string) (p : option Projection) (s : S) :
  id = "" \/ isValid id = false ->
  run E (get isValid id p) s = (Failed (Error "Invalid Id"), s, []) /\
  run E (remove isValid id) s = (Failed (Error "Invalid Id"), s, []) /\
  kind_of (Error "Invalid Id") = Some InvalidArgument.
Proof.
  intros Hid.
  assert (Hbad : bad_id isValid id = true).
  { destruct Hid as [-> | Hv]; [apply bad_id_empty | now apply bad_id_invalid]. }
  rewrite (get_invalid _ _ _ Hbad), (remove_invalid _ _ Hbad).
  now rewrite !run_throw.
Qed.

Lemma get_remove_reject_invalid_id_witness :
  ("not-an-id" = "" \/ objectid_isValid "not-an-id" = false) /\
  run Sample.db (get objectid_isValid "not-an-id" None) (Sample.up Sample.five)
  = (Failed (Error "Invalid Id"), Sample.up Sample.five, []) /\
  run Sample.db (remove objectid_isValid "not-an-id") (Sample.up Sample.five)
  = (Failed (Error "Invalid Id"), Sample.up Sample.five, []) /\
  kind_of (Error "Invalid Id") = Some InvalidArgument.
Proof.
  split; [right; reflexivity|].
  apply (get_remove_reject_invalid_id Sample.db objectid_isValid "not-an-id" None
           (Sample.up Sample.five)).
  right; reflexivity.
Defined.

(** C7: whatever it is given, [createMany] of the base class fails with
    [Error('Method not implemented.')], a NotImplemented, and sends nothing
    to the storage handle. *)
Theorem createMany_not_implemented
        {S : Type} (E : engine S) (data : list JS.value) (s : S) :
  run E (createMany data) s = (Failed (Error "Method not implemented."), s, []) /\
  kind_of (Error "Method not implemented.") = Some NotImplemented.
Proof. split; reflexivity. Qed.

(** [create] refuses exactly the falsy payloads. *)
Lemma create_rejects_falsy {S : Type} (E : engine S) (data : JS.value) (s : S) :
  JS.truthy data = false ->
  run E (create data) s = (Failed (Error "Empty object provided"), s, []).
Proof. intros H. now rewrite (create_falsy _ H). Qed.

(** C2: the empty object is truthy, so [create({})] passes the [!data]
    guard: the insert request is issued, the call never fails with
    [Error('Empty object provided')], and on a working engine a record
    without fields is stored. *)
Theorem create_empty_object_is_written {S : Type} (E : engine S) (s : S) :
  trace_of (run E (create (JS.Obj [])) s) = [Issued (Create (JS.Obj []))] /\
  result_of (run E (create (JS.Obj [])) s) <> Failed (Error "Empty object provided") /\
  run Sample.db (create (JS.Obj [])) (Sample.up Sample.five)
  = (Ok (mkDoc Sample.id9 []),
     Sample.up (Sample.five ++ [mkDoc Sample.id9 []]),
     [Issued (Create (JS.Obj []))]).
Proof.
  repeat split.
  - cbn. now destruct (handle E (Create (JS.Obj [])) s) as [[reason | d] s'].
  - cbn. destruct (handle E (Create (JS.Obj [])) s) as [[reason | d] s'];
      cbn; discriminate.
Qed.

(** C3: [removeMany] does not consult the identifier validator: whatever
    non-empty array of identifiers it is given is sent to the storage handle
    as it is, in the first request of the call; so is an identifier that
    the validator refuses, which [get] and [remove] would have rejected. *)
Theorem removeMany_sends_unvalidated_ids {S : Type} (E : engine S) (s : S) :
  (forall id ids,
     hd_error (trace_of (run E (removeMany (Some (id :: ids))) s))
     = Some (Issued (DeleteMany (FIdIn (id :: ids))))) /\
  objectid_isValid "not-an-id" = false /\
  get objectid_isValid "not-an-id" None = Throw (Error "Invalid Id") /\
  remove objectid_isValid "not-an-id" = Throw (Error "Invalid Id") /\
  hd_error (trace_of (run E (removeMany (Some ["not-an-id"])) s))
  = Some (Issued (DeleteMany (FIdIn ["not-an-id"]))).
Proof.
  assert (Hsent : forall id ids,
             hd_error (trace_of (run E (removeMany (Some (id :: ids))) s))
             = Some (Issued (DeleteMany (FIdIn (id :: ids))))).
  { intros id ids. rewrite removeMany_targeted. cbn.
    destruct (handle E (DeleteMany (FIdIn (id :: ids))) s) as [[reason | []] s'].
    - reflexivity.
    - now destruct (handle E (DeleteMany FEmpty) s') as [[reason | []] s'']. }
  split; [exact Hsent|].
  repeat split. apply Hsent.
Qed.

(** ** Round trips *)

(** C4, as the claim states it, fails: a [removeMany] with one identifier
    makes two round trips on a working engine, and [createMany] makes
    none. *)
Lemma removeMany_two_round_trips :
  round_trips (run Sample.db (removeMany (Some [Sample.id1])) (Sample.up Sample.five))
  <> 1%nat /\
  round_trips (run Sample.db (createMany [JS.Obj []]) (Sample.up Sample.five))
  <> 1%nat.
Proof. split; vm_compute; discriminate. Qed.

(** C4, amended: [createMany] sends no request; [removeMany] sends exactly
    one when [ids] is absent or empty, and, when [ids] is not empty, two if
    the targeted delete is served and one if it is rejected; every other
    operation sends at most one. *)
Theorem round_trips_per_call
        {S : Type} (E : engine S) (isValid : string -> bool) (s : S) :
  (forall data, round_trips (run E (createMany data) s) = 0%nat) /\
  (forall ids, ids = None \/ ids = Some [] ->
     round_trips (run E (removeMany ids) s) = 1%nat) /\
  (forall ids, ids <> [] ->
     round_trips (run E (removeMany (Some ids)) s) =
     match fst (handle E (DeleteMany (FIdIn ids)) s) with
     | inr _ => 2%nat
     | inl _ => 1%nat
     end) /\
  (forall id p, (round_trips (run E (get isValid id p) s) <= 1)%nat) /\
  (forall limit page sort p,
     (round_trips (run E (getAll limit page sort p) s) <= 1)%nat) /\
  (forall f limit page sort p,
     (round_trips (run E (find f limit page sort p) s) <= 1)%nat) /\
  (forall data, (round_trips (run E (create data) s) <= 1)%nat) /\
  (forall id, (round_trips (run E (remove isValid id) s) <= 1)%nat).
Proof.
  repeat apply conj.
  - reflexivity.
  - intros ids H. rewrite (removeMany_blanket _ H).
    apply single_request_round_trips.
  - intros [|id ids] H; [contradiction|].
    rewrite removeMany_targeted. unfold round_trips, trace_of. cbn.
    destruct (handle E (DeleteMany (FIdIn (id :: ids))) s) as [[reason | []] s'].
    + reflexivity.
    + cbn. now destruct (handle E (DeleteMany FEmpty) s') as [[reason | []] s''].
  - intros id p. destruct (bad_id isValid id) eqn:Hb.
    + rewrite (get_invalid _ _ _ Hb). cbn. lia.
    + rewrite (get_valid _ _ _ Hb).
      rewrite (single_request_round_trips E _ (fun d => d)). lia.
  - intros limit page sort p. unfold getAll.
    rewrite (single_request_round_trips E _ (fun d => d)). lia.
  - intros f limit page sort p. unfold find.
    rewrite (single_request_round_trips E _ (fun d => d)). lia.
  - intros data. destruct (JS.truthy data) eqn:Ht.
    + rewrite (create_truthy _ Ht).
      rewrite (single_request_round_trips E _ (fun d => d)). lia.
    + rewrite (create_falsy _ Ht). cbn. lia.
  - intros id. destruct (bad_id isValid id) eqn:Hb.
    + rewrite (remove_invalid _ _ Hb). cbn. lia.
    + rewrite (remove_valid _ _ Hb).
      rewrite (single_request_round_trips E _ (fun _ => tt)). lia.
Qed.

Lemma round_trips_per_call_witness :
  round_trips (run Sample.db (removeMany None) (Sample.up Sample.five)) = 1%nat /\
  round_trips (run Sample.db (removeMany (Some [Sample.id1; Sample.id2]))
                   (Sample.up Sample.five)) = 2%nat.
Proof.
  destruct (round_trips_per_call Sample.db objectid_isValid (Sample.up Sample.five))
    as (_ & Hblanket & Htargeted & _).
  split.
  - apply Hblanket. left; reflexivity.
  - apply (Htargeted [Sample.id1; Sample.id2]). discriminate.
Defined.

(** ** Runs against the in-memory engine *)

Section InMemory.

Variable project : Projection -> doc -> doc.
Variable order_by : Sort -> list doc -> list doc.
Variable gen_id : list doc -> string.

Local Abbreviation fault := Memory.fault.
Local Abbreviation store := Memory.store.
Local Abbreviation mkStore := Memory.mkStore.
Local Abbreviation records := Memory.records.
Local Abbreviation faults := Memory.faults.
Local Abbreviation M := (Memory.mem project order_by gen_id).
Local Abbreviation select := (Memory.select project order_by).

Lemma filter_none {A : Type} (l : list A) : List.filter (fun _ => false) l = [].
Proof. induction l as [|a l IH]; [reflexivity | exact IH]. Qed.

Lemma find_absent (id : string) (l : list doc) :
  (forall d, In d l -> doc_id d <> id) -> List.find (Memory.has_id id) l = None.
Proof.
  induction l as [|d l IH]; intros H; [reflexivity|].
  cbn. unfold Memory.has_id at 1.
  destruct (String.eqb_spec (doc_id d) id) as [Heq | _].
  - exfalso. apply (H d); [now left | exact Heq].
  - apply IH. intros d' Hin. apply H. now right.
Qed.

Lemma remove_first_absent (id : string) (l : list doc) :
  (forall d, In d l -> doc_id d <> id) -> Memory.remove_first id l = l.
Proof.
  induction l as [|d l IH]; intros H; [reflexivity|].
  cbn. unfold Memory.has_id at 1.
  destruct (String.eqb_spec (doc_id d) id) as [Heq | _].
  - exfalso. apply (H d); [now left | exact Heq].
  - f_equal. apply IH. intros d' Hin. apply H. now right.
Qed.

(** A request the engine is due to fail is rejected with the fault's reason. *)
Lemma handle_faulted {X : Type} (r : request X) (l : list doc) (ft : fault)
      (later : list (option fault)) :
  handle M r (mkStore l (Some ft :: later))
  = (inl (Memory.why ft), mkStore (Memory.abort r ft l) later).
Proof. reflexivity. Qed.

Lemma healthy_1 (n : nat) (fs : list (option fault)) :
  Memory.healthy (Datatypes.S n) fs = true -> Memory.healthy 1 fs = true.
Proof. destruct fs as [|[ft|] later]; cbn; intros H; try discriminate; reflexivity. Qed.

(** The blanket delete, when it is served, leaves nothing. *)
Lemma blanket_delete_run (l : list doc) (fs : list (option fault)) :
  let r := run M (Await (DeleteMany FEmpty) (fun _ => Ret tt)) (mkStore l fs) in
  (Memory.healthy 1 fs = true -> result_of r = Ok tt) /\
  (result_of r = Ok tt -> records (state_of r) = []) /\
  trace_of r = [Issued (DeleteMany FEmpty)].
Proof.
  destruct fs as [|[ft|] later]; cbn; repeat split; intros; try discriminate;
    apply filter_none.
Qed.

(** *** removeMany *)

(** C1: for every [ids] (absent, empty or not), a [removeMany] that
    completes leaves the collection empty: it has sent the targeted delete
    first when [ids] is a non-empty array, and then, in every case, the
    delete of all records.  It does complete when the engine serves its
    requests. *)
Theorem removeMany_empties_collection (ids : option (list string)) (s : store) :
  (Memory.healthy 2 (faults s) = true ->
   result_of (run M (removeMany ids) s) = Ok tt) /\
  (result_of (run M (removeMany ids) s) = Ok tt ->
   records (state_of (run M (removeMany ids) s)) = [] /\
   trace_of (run M (removeMany ids) s) = removeMany_requests ids).
Proof.
  destruct s as [l fs].
  destruct ids as [[|id ids]|].
  - rewrite (removeMany_blanket (Some [])) by now right.
    destruct (blanket_delete_run l fs) as (H1 & H2 & H3).
    split; [intros H; apply H1; now apply healthy_1 in H|].
    intros H. split; [now apply H2 | exact H3].
  - rewrite removeMany_targeted.
    destruct fs as [|[ft|] later].
    + cbn. split; [reflexivity|]. intros _. split; [apply filter_none | reflexivity].
    + cbn. split; discriminate.
    + destruct later as [|[ft|] later]; cbn; split; intros; try discriminate;
        try reflexivity; (split; [apply filter_none | reflexivity]).
  - rewrite (removeMany_blanket None) by now left.
    destruct (blanket_delete_run l fs) as (H1 & H2 & H3).
    split; [intros H; apply H1; now apply healthy_1 in H|].
    intros H. split; [now apply H2 | exact H3].
Qed.

(** A rejected targeted delete ends [removeMany], on any engine. *)
Lemma removeMany_stops_at_rejection {S : Type} (E : engine S)
      (id : string) (ids : list string) (s s' : S) (reason : string) :
  handle E (DeleteMany (FIdIn (id :: ids))) s = (inl reason, s') ->
  run E (removeMany (Some (id :: ids))) s
  = (Failed (Rejected reason), s', [Issued (DeleteMany (FIdIn (id :: ids)))]).
Proof. intros H. rewrite removeMany_targeted. now apply run_await_rejected. Qed.

Lemma filter_filter_outside (f g : doc -> bool) (l : list doc) :
  (forall d, f d = true -> g d = true) ->
  List.filter f (List.filter g l) = List.filter f l.
Proof.
  intros H. induction l as [|d l IH]; [reflexivity|].
  cbn. destruct (g d) eqn:Hg.
  - cbn. now rewrite IH.
  - destruct (f d) eqn:Hf; [|exact IH].
    apply H in Hf. congruence.
Qed.

(** C10: when the engine rejects the targeted delete of a non-empty [ids],
    [removeMany] fails with that rejection, the delete of all records is
    not sent, and the records whose identifier is not in [ids] are the ones
    that were there, in the same order, whatever part of the targeted
    delete had been carried out. *)
Theorem removeMany_targeted_delete_rejected
        (ids : list string) (l : list doc) (ft : fault)
        (later : list (option fault)) :
  ids <> [] ->
  let r := run M (removeMany (Some ids)) (mkStore l (Some ft :: later)) in
  result_of r = Failed (Rejected (Memory.why ft)) /\
  trace_of r = [Issued (DeleteMany (FIdIn ids))] /\
  List.filter (fun d => negb (Memory.matches (FIdIn ids) d)) (records (state_of r))
  = List.filter (fun d => negb (Memory.matches (FIdIn ids) d)) l /\
  (forall d, ~ In (doc_id d) ids -> (In d (records (state_of r)) <-> In d l)).
Proof.
  destruct ids as [|id ids]; [contradiction|]. intros _ r.
  assert (Hr : r = (Failed (Rejected (Memory.why ft)),
                    mkStore (Memory.abort (DeleteMany (FIdIn (id :: ids))) ft l) later,
                    [Issued (DeleteMany (FIdIn (id :: ids)))])).
  { subst r. apply removeMany_stops_at_rejection. apply handle_faulted. }
  rewrite Hr. cbn [result_of state_of trace_of fst snd Memory.records Memory.abort].
  repeat split.
  - apply filter_filter_outside. intros d Hd.
    apply negb_true_iff in Hd. now rewrite Hd.
  - intros Hin. now apply filter_In in Hin.
  - intros Hin. apply filter_In. split; [exact Hin|].
    apply negb_true_iff, andb_false_iff. left.
    destruct (Memory.matches (FIdIn (id :: ids)) d) eqn:Hm; [|reflexivity].
    exfalso. apply H. cbn [Memory.matches] in Hm.
    apply existsb_exists in Hm as (x & Hx & Heq).
    apply String.eqb_eq in Heq. now rewrite Heq.
Qed.

(** *** absent records *)

(** C9: for a valid identifier that no record carries, on an engine that
    serves the request, [get] returns the not-found value and [remove]
    completes, and both leave the collection (hence its count) as it
    was. *)
Theorem absent_record_is_not_an_error
        (isValid : string -> bool) (id : string) (p : option Projection)
        (s : store) :
  id <> "" -> isValid id = true ->
  (forall d, In d (records s) -> doc_id d <> id) ->
  Memory.healthy 1 (faults s) = true ->
  result_of (run M (get isValid id p) s) = Ok None /\
  records (state_of (run M (get isValid id p) s)) = records s /\
  result_of (run M (remove isValid id) s) = Ok tt /\
  records (state_of (run M (remove isValid id) s)) = records s /\
  List.length (records (state_of (run M (remove isValid id) s)))
  = List.length (records s).
Proof.
  intros Hne Hv Habs Hh. destruct s as [l fs]. cbn [Memory.records Memory.faults] in *.
  pose proof (bad_id_false isValid id Hne Hv) as Hb.
  rewrite (get_valid _ _ _ Hb), (remove_valid _ _ Hb).
  destruct fs as [|[ft|] later]; try discriminate; cbn;
    rewrite (find_absent id l Habs), (remove_first_absent id l Habs);
    repeat split.
Qed.

(** *** Listing *)

Lemma filter_all (l : list doc) : List.filter (Memory.matches FEmpty) l = l.
Proof. induction l as [|d l IH]; [reflexivity|]. cbn. now rewrite IH. Qed.

(** A query whose skip is not negative, on an engine that serves it. *)
Lemma run_exec (q : query) (l : list doc) (fs : list (option fault)) :
  Memory.healthy 1 fs = true -> Memory.negative (q_skip q) = false ->
  run M (Await (Exec q) Ret) (mkStore l fs)
  = (Ok (select q l), mkStore l (tl fs), [Issued (Exec q)]).
Proof.
  intros Hh Hn.
  destruct fs as [|[ft|] later]; try discriminate; cbn; now rewrite Hn.
Qed.

Lemma limited_prefix (n : option Z) (l : list doc) :
  exists rest, l = Memory.limited n l ++ rest.
Proof.
  destruct n as [k|]; cbn.
  - destruct (k =? 0).
    + exists []. now rewrite app_nil_r.
    + exists (skipn (Z.abs_nat k) l). symmetry. apply firstn_skipn.
  - exists []. now rewrite app_nil_r.
Qed.

Lemma projected_app (p : option Projection) (l1 l2 : list doc) :
  Memory.projected project p (l1 ++ l2)
  = Memory.projected project p l1 ++ Memory.projected project p l2.
Proof. destruct p; cbn; [apply map_app | reflexivity]. Qed.

(** C5: [getAll] takes [limit = 20] and [page = 1] for absent arguments;
    for [page > 0] the query it sends carries [skip = limit * (page - 1)]
    and [limit], and the engine skips before it limits; on five records
    with [limit = 2], page 1 is the first two (skip 0), page 2 the next two
    (skip 2) and page 3 the last one. *)
Theorem getAll_pagination :
  (forall page sort p, getAll None page sort p = getAll (Some 20) page sort p) /\
  (forall limit sort p, getAll limit None sort p = getAll limit (Some 1) sort p) /\
  (forall limit page sort p, page > 0 ->
     getAll (Some limit) (Some page) sort p
     = Await (Exec (mkQuery FEmpty (Some (default [] p)) sort
                      (Some (limit * (page - 1))) (Some limit))) Ret) /\
  (forall limit page sort p l fs,
     limit > 0 -> page > 0 -> Memory.healthy 1 fs = true ->
     result_of (run M (getAll (Some limit) (Some page) sort p) (mkStore l fs))
     = Ok (map (project (default [] p))
             (firstn (Z.to_nat limit)
                (skipn (Z.to_nat (limit * (page - 1)))
                   (Memory.sorted order_by sort l))))) /\
  (forall a b c d e fs, Memory.healthy 1 fs = true ->
     run M (getAll (Some 2) (Some 1) None None) (mkStore [a; b; c; d; e] fs)
     = (Ok (map (project []) [a; b]), mkStore [a; b; c; d; e] (tl fs),
        [Issued (Exec (mkQuery FEmpty (Some []) None (Some 0) (Some 2)))]) /\
     run M (getAll (Some 2) (Some 2) None None) (mkStore [a; b; c; d; e] fs)
     = (Ok (map (project []) [c; d]), mkStore [a; b; c; d; e] (tl fs),
        [Issued (Exec (mkQuery FEmpty (Some []) None (Some 2) (Some 2)))]) /\
     run M (getAll (Some 2) (Some 3) None None) (mkStore [a; b; c; d; e] fs)
     = (Ok (map (project []) [e]), mkStore [a; b; c; d; e] (tl fs),
        [Issued (Exec (mkQuery FEmpty (Some []) None (Some 4) (Some 2)))])).
Proof.
  repeat apply conj.
  - reflexivity.
  - reflexivity.
  - intros. now apply getAll_paged.
  - intros limit page sort p l fs Hl Hp Hh.
    rewrite (getAll_paged limit page sort p Hp).
    rewrite run_exec; [|exact Hh|cbn; apply Z.ltb_ge; nia].
    unfold Memory.select, result_of. cbn.
    rewrite filter_all.
    replace (limit =? 0) with false by (symmetry; apply Z.eqb_neq; lia).
    now rewrite Zabs2Nat.abs_nat_nonneg by lia.
  - intros a b c d e fs Hh.
    repeat apply conj; unfold getAll; cbn [default Z.gtb Z.compare];
      (rewrite run_exec; [reflexivity | exact Hh | reflexivity]).
Qed.

(** C6: [find] takes [limit = 10] and [page = 0] for absent arguments; for
    [page <= 0] the query it sends carries no skip, so what it returns is
    an initial segment of the whole sequence of matching records; for
    [page > 0] the query carries [skip = limit * (page - 1)] and [limit],
    as that of [getAll] does. *)
Theorem find_pagination :
  (forall f page sort p, find f None page sort p = find f (Some 10) page sort p) /\
  (forall f limit sort p,
     find f limit None sort p = find f limit (Some (ArgNum 0)) sort p) /\
  (forall f limit page sort p, page <= 0 ->
     find f (Some limit) (Some (ArgNum page)) sort p
     = Await (Exec (mkQuery f p sort None (Some limit))) Ret) /\
  (forall f limit page sort p l fs, page <= 0 -> Memory.healthy 1 fs = true ->
     exists docs rest,
       result_of (run M (find f (Some limit) (Some (ArgNum page)) sort p)
                      (mkStore l fs)) = Ok docs /\
       select (mkQuery f p sort None None) l = docs ++ rest) /\
  (forall f limit page sort p, page > 0 ->
     find f (Some limit) (Some (ArgNum page)) sort p
     = Await (Exec (mkQuery f p sort (Some (limit * (page - 1))) (Some limit))) Ret /\
     getAll (Some limit) (Some page) sort p
     = Await (Exec (mkQuery FEmpty (Some (default [] p)) sort
                      (Some (limit * (page - 1))) (Some limit))) Ret).
Proof.
  repeat apply conj.
  - reflexivity.
  - reflexivity.
  - intros. now apply find_unpaged.
  - intros f limit page sort p l fs Hp Hh.
    rewrite (find_unpaged f limit page sort p Hp).
    rewrite run_exec; [|exact Hh|reflexivity].
    unfold Memory.select, result_of. cbn [fst q_filter q_projection q_sort q_skip q_limit].
    destruct (limited_prefix (Some limit)
                (Memory.skipped None
                   (Memory.sorted order_by sort (List.filter (Memory.matches f) l))))
      as [rest Hrest].
    eexists. exists (Memory.projected project p rest).
    split; [reflexivity|].
    rewrite <- projected_app. f_equal.
    cbn [Memory.limited Memory.skipped] in *. exact Hrest.
  - intros f limit page sort p Hp.
    split; [now apply find_paged | now apply getAll_paged].
Qed.

(** A projection given as third argument of [find] is compared with [0] as
    a page number, which it is not: no skip, and no projection either. *)
Lemma find_projection_as_page (f : filter) (limit : Z) (pr : Projection) :
  find f (Some limit) (Some (ArgProjection pr)) None None
  = Await (Exec (mkQuery f None None None (Some limit))) Ret.
Proof. reflexivity. Qed.

(** *** Further runs: writing and reading back *)

Lemma find_appended (id : string) (l : list doc) (d : doc) :
  (forall x, In x l -> doc_id x <> id) -> doc_id d = id ->
  List.find (Memory.has_id id) (l ++ [d]) = Some d.
Proof.
  intros Habs Hd. induction l as [|x l IH]; cbn.
  - unfold Memory.has_id. rewrite Hd. now rewrite String.eqb_refl.
  - unfold Memory.has_id at 1.
    destruct (String.eqb_spec (doc_id x) id) as [Heq | _].
    + exfalso. apply (Habs x); [now left | exact Heq].
    + apply IH. intros y Hy. apply Habs. now right.
Qed.

Lemma filter_absent (id : string) (l : list doc) :
  (forall x, In x l -> doc_id x <> id) ->
  List.filter (fun d => negb (Memory.has_id id d)) l = l.
Proof.
  induction l as [|x l IH]; intros Habs; [reflexivity|].
  cbn. unfold Memory.has_id at 1.
  destruct (String.eqb_spec (doc_id x) id) as [Heq | _].
  - exfalso. apply (Habs x); [now left | exact Heq].
  - cbn. f_equal. apply IH. intros y Hy. apply Habs. now right.
Qed.

(** With unique identifiers, removing the first record that carries [id]
    removes every record that carries it. *)
Lemma remove_first_unique (id : string) (l : list doc) :
  NoDup (map doc_id l) ->
  Memory.remove_first id l = List.filter (fun d => negb (Memory.has_id id d)) l.
Proof.
  induction l as [|x l IH]; intros Hnd; [reflexivity|].
  inversion Hnd as [|? ? Hnotin Hnd']; subst.
  cbn. destruct (Memory.has_id id x) eqn:Hx; cbn.
  - apply String.eqb_eq in Hx.
    symmetry. apply filter_absent. intros y Hy Hyid.
    apply Hnotin. rewrite Hx, <- Hyid. now apply in_map.
  - f_equal. now apply IH.
Qed.

Lemma remove_first_length (id : string) (l : list doc) :
  (exists d, In d l /\ doc_id d = id) ->
  Datatypes.S (List.length (Memory.remove_first id l)) = List.length l.
Proof.
  induction l as [|x l IH]; intros (d & Hin & Hd); [destruct Hin|].
  cbn. unfold Memory.has_id at 1.
  destruct (String.eqb_spec (doc_id x) id) as [Heq | Hneq]; [reflexivity|].
  cbn. f_equal. apply IH. exists d. split; [|exact Hd].
  destruct Hin as [-> | Hin]; [contradiction | exact Hin].
Qed.

(** X7: on an engine that serves the requests and assigns a fresh, valid
    identifier, [create] of an object returns the stored record (the
    payload's fields under the new identifier), appends exactly that record
    to the collection, and a following [get] of the new identifier returns
    it, projected. *)
Theorem create_then_get
        (isValid : string -> bool) (fields : list (string * JS.value))
        (p : option Projection) (s : store) :
  gen_id (records s) <> "" -> isValid (gen_id (records s)) = true ->
  (forall d, In d (records s) -> doc_id d <> gen_id (records s)) ->
  Memory.healthy 2 (faults s) = true ->
  result_of (run M (create (JS.Obj fields)) s) = Ok (mkDoc (gen_id (records s)) fields) /\
  records (state_of (run M (create (JS.Obj fields)) s))
  = records s ++ [mkDoc (gen_id (records s)) fields] /\
  result_of (run M (get isValid (gen_id (records s)) p)
                 (state_of (run M (create (JS.Obj fields)) s)))
  = Ok (Some (project (default [] p) (mkDoc (gen_id (records s)) fields))).
Proof.
  destruct s as [l fs]. cbn [Memory.records Memory.faults].
  intros Hne Hv Hfresh Hh.
  rewrite (get_valid _ _ _ (bad_id_false isValid _ Hne Hv)).
  assert (Hfound : List.find (Memory.has_id (gen_id l)) (l ++ [mkDoc (gen_id l) fields])
                   = Some (mkDoc (gen_id l) fields))
    by now apply find_appended.
  destruct fs as [|[ft|] [|[ft'|] later]]; try discriminate; cbn;
    rewrite Hfound; repeat split.
Qed.

(** X8: on an engine that serves the requests, with unique identifiers in
    the collection, [remove] of a valid identifier that a record carries
    deletes that record and no other, so the count drops by one, and a
    following [get] of that identifier returns the not-found value. *)
Theorem remove_then_get
        (isValid : string -> bool) (id : string) (p : option Projection) (s : store) :
  id <> "" -> isValid id = true ->
  NoDup (map doc_id (records s)) ->
  (exists d, In d (records s) /\ doc_id d = id) ->
  Memory.healthy 2 (faults s) = true ->
  result_of (run M (remove isValid id) s) = Ok tt /\
  records (state_of (run M (remove isValid id) s))
  = List.filter (fun d => negb (Memory.has_id id d)) (records s) /\
  Datatypes.S (List.length (records (state_of (run M (remove isValid id) s))))
  = List.length (records s) /\
  result_of (run M (get isValid id p) (state_of (run M (remove isValid id) s)))
  = Ok None.
Proof.
  destruct s as [l fs]. cbn [Memory.records Memory.faults].
  intros Hne Hv Hnd Hin Hh.
  pose proof (bad_id_false isValid id Hne Hv) as Hb.
  rewrite (get_valid _ _ _ Hb), (remove_valid _ _ Hb).
  assert (Hgone : List.find (Memory.has_id id) (Memory.remove_first id l) = None).
  { apply find_absent. intros d Hd. rewrite (remove_first_unique id l Hnd) in Hd.
    apply filter_In in Hd as [_ Hd]. apply negb_true_iff in Hd.
    now apply String.eqb_neq. }
  pose proof (remove_first_length id l Hin) as Hlen.
  pose proof (remove_first_unique id l Hnd) as Hfilter.
  destruct fs as [|[ft|] [|[ft'|] later]]; try discriminate; cbn;
    rewrite Hgone; repeat split; assumption.
Qed.

(** X9: when the engine rejects the delete of all records that follows a
    served targeted delete, [removeMany] fails with that rejection, but the
    targeted delete stays done: no record whose identifier is in [ids] is
    left, and nothing is restored. *)
Theorem removeMany_blanket_delete_rejected
        (ids : list string) (l : list doc) (ft : fault)
        (later : list (option fault)) :
  ids <> [] ->
  let r := run M (removeMany (Some ids)) (mkStore l (None :: Some ft :: later)) in
  result_of r = Failed (Rejected (Memory.why ft)) /\
  trace_of r = [Issued (DeleteMany (FIdIn ids)); Issued (DeleteMany FEmpty)] /\
  records (state_of r)
  = List.filter (fun d => negb (Memory.deleted ft d))
      (List.filter (fun d => negb (Memory.matches (FIdIn ids) d)) l) /\
  (forall d, In d (records (state_of r)) -> In d l /\ ~ In (doc_id d) ids).
Proof.
  destruct ids as [|id ids]; [contradiction|]. intros _ r.
  subst r. rewrite removeMany_targeted. cbn.
  repeat split.
  - apply filter_In in H as [H _]. now apply filter_In in H.
  - apply filter_In in H as [H _]. apply filter_In in H as [_ H].
    apply negb_true_iff in H. intros Hin.
    assert (Hex : existsb (String.eqb (doc_id d)) (id :: ids) = true).
    { apply existsb_exists. exists (doc_id d). split; [exact Hin | apply String.eqb_refl]. }
    cbn in Hex. cbn in H. congruence.
Qed.

(** *** Further runs: listing *)

Lemma run_exec_inv (q : query) (l : list doc) (fs : list (option fault))
      (docs : list doc) :
  result_of (run M (Await (Exec q) Ret) (mkStore l fs)) = Ok docs ->
  docs = select q l.
Proof.
  destruct fs as [|[ft|] later]; cbn; try discriminate;
    destruct (Memory.negative (q_skip q)); cbn; intros H; now inversion H.
Qed.

Lemma projected_length (p : option Projection) (l : list doc) :
  List.length (Memory.projected project p l) = List.length l.
Proof. destruct p; cbn; [apply length_map | reflexivity]. Qed.

Lemma limited_length (n : Z) (l : list doc) :
  n > 0 -> (List.length (Memory.limited (Some n) l) <= Z.to_nat n)%nat.
Proof.
  intros Hn. cbn.
  replace (n =? 0) with false by (symmetry; apply Z.eqb_neq; lia).
  rewrite Zabs2Nat.abs_nat_nonneg by lia.
  rewrite length_firstn. lia.
Qed.

(** X10: a listing with a positive limit never returns more records than
    the limit, whatever the page, the sort, the projection and, for [find],
    the filter. *)
Theorem listing_bounded_by_limit
        (limit : Z) (page : option Z) (fpage : option find_arg) (f : filter)
        (sort : option Sort) (p : option Projection) (s : store) (docs : list doc) :
  limit > 0 ->
  result_of (run M (getAll (Some limit) page sort p) s) = Ok docs \/
  result_of (run M (find f (Some limit) fpage sort p) s) = Ok docs ->
  (List.length docs <= Z.to_nat limit)%nat.
Proof.
  intros Hl H. destruct s as [l fs].
  destruct H as [H | H]; [unfold getAll in H | unfold find in H];
    apply run_exec_inv in H; subst docs; unfold Memory.select;
    rewrite projected_length; cbn [q_limit query_limit];
    now apply limited_length.
Qed.

Lemma in_limited (n : option Z) (l : list doc) (x : doc) :
  In x (Memory.limited n l) -> In x l.
Proof.
  destruct (limited_prefix n l) as [rest Hrest]. intros Hin.
  rewrite Hrest. apply in_or_app. now left.
Qed.

Lemma in_skipped (n : option Z) (l : list doc) (x : doc) :
  In x (Memory.skipped n l) -> In x l.
Proof.
  destruct n as [k|]; cbn; [|trivial]. intros Hin.
  rewrite <- (firstn_skipn (Z.to_nat k) l). apply in_or_app. now right.
Qed.

Lemma in_select (q : query) (l : list doc) (x : doc) :
  q_sort q = None -> In x (select q l) ->
  exists d, In d l /\ Memory.matches (q_filter q) d = true /\
            x = match q_projection q with Some pr => project pr d | None => d end.
Proof.
  destruct q as [f p srt sk lim]. cbn [q_sort q_filter q_projection].
  intros -> Hin. unfold Memory.select in Hin.
  cbn [q_sort q_filter q_projection q_skip q_limit Memory.sorted] in Hin.
  assert (Hsel : forall y,
             In y (Memory.limited lim
                     (Memory.skipped sk (List.filter (Memory.matches f) l))) ->
             In y l /\ Memory.matches f y = true).
  { intros y Hy. apply in_limited, in_skipped in Hy. now apply filter_In in Hy. }
  destruct p as [pr|]; cbn [Memory.projected] in Hin.
  - apply in_map_iff in Hin as (d & <- & Hd). apply Hsel in Hd as [Hd1 Hd2].
    exists d. repeat split; assumption.
  - apply Hsel in Hin as [Hd1 Hd2]. exists x. repeat split; assumption.
Qed.

(** X11: without a sort, every record [find] returns is a stored record
    that matches the filter (as the projection shows it when one is
    given), whatever the limit and the page. *)
Theorem find_returns_matching_records
        (f : filter) (limit : option Z) (page : option find_arg)
        (p : option Projection) (s : store) (docs : list doc) (x : doc) :
  result_of (run M (find f limit page None p) s) = Ok docs ->
  In x docs ->
  exists d, In d (records s) /\ Memory.matches f d = true /\
            x = match p with Some pr => project pr d | None => d end.
Proof.
  destruct s as [l fs]. unfold find. intros H Hin.
  apply run_exec_inv in H. subst docs.
  apply in_select in Hin.
  - destruct (arg_gt0 (default (ArgNum 0) page)); exact Hin.
  - now destruct (arg_gt0 (default (ArgNum 0) page)).
Qed.

(** X12: a page number that is zero or negative gives the first page:
    [getAll] and [find] then return what they return for page [1]. *)
Theorem nonpositive_page_is_first_page
        (limit page : Z) (f : filter) (sort : option Sort)
        (p : option Projection) (s : store) :
  page <= 0 ->
  result_of (run M (getAll (Some limit) (Some page) sort p) s)
  = result_of (run M (getAll (Some limit) (Some 1) sort p) s) /\
  result_of (run M (find f (Some limit) (Some (ArgNum page)) sort p) s)
  = result_of (run M (find f (Some limit) (Some (ArgNum 1)) sort p) s).
Proof.
  intros Hp. destruct s as [l fs].
  rewrite (getAll_unpaged limit page sort p Hp), (find_unpaged f limit page sort p Hp).
  rewrite (getAll_paged limit 1 sort p) by lia.
  rewrite (find_paged f limit 1 sort p) by lia.
  replace (limit * (1 - 1)) with 0 by lia.
  destruct fs as [|[ft|] later]; split; reflexivity.
Qed.

Lemma firstn_plus {A : Type} (a b : nat) (l : list A) :
  firstn (a + b) l = firstn a l ++ firstn b (skipn a l).
Proof.
  revert l. induction a as [|a IH]; intros l; [reflexivity|].
  destruct l as [|x l]; cbn.
  - now rewrite firstn_nil.
  - f_equal. apply IH.
Qed.

(** X13: with a positive limit, on an engine that serves the requests, the
    pages [1], [2], ..., [n] of [getAll] put end to end are the first
    [n * limit] records of the (sorted) collection: consecutive pages
    neither overlap nor leave a record out. *)
Theorem pages_tile_the_collection
        (limit : Z) (sort : option Sort) (p : option Projection)
        (l : list doc) (n : nat) :
  limit > 0 ->
  pages_upto M (mkStore l []) limit sort p n
  = map (project (default [] p))
      (firstn (n * Z.to_nat limit) (Memory.sorted order_by sort l)).
Proof.
  intros Hl. unfold pages_upto.
  induction n as [|n IH]; [reflexivity|].
  rewrite seq_S, flat_map_app, IH. cbn [flat_map plus].
  rewrite app_nil_r.
  remember (Z.of_nat (Datatypes.S n)) as k eqn:Hk.
  rewrite (getAll_paged limit k sort p) by lia.
  rewrite run_exec; [|reflexivity|unfold Memory.negative; cbn [q_skip]; apply Z.ltb_ge; nia].
  unfold Memory.select, result_of.
  cbn [fst q_filter q_projection q_sort q_skip q_limit Memory.projected
       Memory.limited Memory.skipped].
  rewrite filter_all.
  replace (limit =? 0) with false by (symmetry; apply Z.eqb_neq; lia).
  rewrite Zabs2Nat.abs_nat_nonneg by lia.
  cbn [docs_of]. rewrite <- map_app. f_equal.
  replace (Z.to_nat (limit * (k - 1))) with (n * Z.to_nat limit)%nat.
  2:{ replace (k - 1) with (Z.of_nat n) by lia.
      rewrite Z2Nat.inj_mul by lia. rewrite Nat2Z.id. apply Nat.mul_comm. }
  replace (Datatypes.S n * Z.to_nat limit)%nat
    with (n * Z.to_nat limit + Z.to_nat limit)%nat by lia.
  symmetry. apply firstn_plus.
Qed.

(** X14: after a [removeMany] that completed, whatever its [ids], an
    unsorted [getAll] with a limit that is not negative returns no record
    and a [get] of any valid identifier returns the not-found value, as
    long as the engine serves them. *)
Theorem removeMany_then_reads_find_nothing
        (isValid : string -> bool) (ids : option (list string)) (s : store)
        (limit page : Z) (p q : option Projection) (id : string) :
  result_of (run M (removeMany ids) s) = Ok tt ->
  Memory.healthy 1 (faults (state_of (run M (removeMany ids) s))) = true ->
  0 <= limit -> id <> "" -> isValid id = true ->
  result_of (run M (getAll (Some limit) (Some page) None p)
                 (state_of (run M (removeMany ids) s))) = Ok [] /\
  result_of (run M (get isValid id q) (state_of (run M (removeMany ids) s))) = Ok None.
Proof.
  intros Hok Hh Hl Hne Hv.
  assert (Hempty : records (state_of (run M (removeMany ids) s)) = []).
  { destruct s as [l fs]. revert Hok.
    destruct ids as [[|i ids]|]; cbn;
      destruct fs as [|[ft|] [|[ft'|] later]]; cbn; intros Hok;
      try discriminate; apply filter_none. }
  destruct (state_of (run M (removeMany ids) s)) as [l' fs'].
  cbn [Memory.records Memory.faults] in *. subst l'.
  rewrite (get_valid _ _ _ (bad_id_false isValid id Hne Hv)).
  split.
  - destruct (Z_gt_le_dec page 0) as [Hp | Hp].
    + rewrite (getAll_paged limit page None p Hp).
      rewrite run_exec; [|exact Hh|cbn; apply Z.ltb_ge; nia].
      unfold Memory.select, result_of. cbn.
      rewrite skipn_nil. destruct (limit =? 0); [reflexivity|].
      now rewrite firstn_nil.
    + rewrite (getAll_unpaged limit page None p Hp).
      rewrite run_exec; [|exact Hh|reflexivity].
      unfold Memory.select, result_of. cbn.
      destruct (limit =? 0); [reflexivity|]. now rewrite firstn_nil.
  - destruct fs' as [|[ft|] later]; try discriminate; reflexivity.
Qed.

End InMemory.

(** ** The theorems at concrete inputs *)

Section Evaluated.

Import Sample.

Lemma removeMany_empties_collection_witness :
  Memory.healthy 2 (Memory.faults (up five)) = true /\
  result_of (run db (removeMany (Some [id1; id2])) (up five)) = Ok tt /\
  Memory.records (state_of (run db (removeMany (Some [id1; id2])) (up five))) = [] /\
  trace_of (run db (removeMany (Some [id1; id2])) (up five))
  = [Issued (DeleteMany (FIdIn [id1; id2])); Issued (DeleteMany FEmpty)].
Proof.
  destruct (removeMany_empties_collection whole stored_order next_id
              (Some [id1; id2]) (up five)) as [Hruns Hempties].
  split; [reflexivity|].
  split; [apply Hruns; reflexivity|].
  apply Hempties. reflexivity.
Defined.

Lemma removeMany_targeted_delete_rejected_witness :
  [id1; id9] <> [] /\
  result_of (run db (removeMany (Some [id1; id9])) (down_at_once five (fun _ => true)))
  = Failed (Rejected "connection lost") /\
  trace_of (run db (removeMany (Some [id1; id9])) (down_at_once five (fun _ => true)))
  = [Issued (DeleteMany (FIdIn [id1; id9]))] /\
  Memory.records
    (state_of (run db (removeMany (Some [id1; id9])) (down_at_once five (fun _ => true))))
  = [r2; r3; r4; r5].
Proof.
  assert (Hne : [id1; id9] <> []) by discriminate.
  destruct (removeMany_targeted_delete_rejected whole stored_order next_id
              [id1; id9] five (Memory.mkFault "connection lost" (fun _ => true)) [] Hne)
    as (Hfails & Htrace & _ & _).
  split; [exact Hne|].
  split; [exact Hfails|].
  split; [exact Htrace|].
  reflexivity.
Defined.

Lemma absent_record_is_not_an_error_witness :
  result_of (run db (get objectid_isValid id9 None) (up five)) = Ok None /\
  result_of (run db (remove objectid_isValid id9) (up five)) = Ok tt /\
  List.length (Memory.records (state_of (run db (remove objectid_isValid id9) (up five))))
  = 5%nat.
Proof.
  assert (Habsent : forall d, In d (Memory.records (up five)) -> doc_id d <> id9).
  { intros d Hin. cbn in Hin.
    destruct Hin as [<-|[<-|[<-|[<-|[<-|[]]]]]]; discriminate. }
  destruct (absent_record_is_not_an_error whole stored_order next_id
              objectid_isValid id9 None (up five))
    as (Hget & _ & Hremove & _ & Hcount);
    [discriminate | reflexivity | exact Habsent | reflexivity |].
  split; [exact Hget|]. split; [exact Hremove | exact Hcount].
Defined.

Lemma getAll_pagination_witness :
  result_of (run db (getAll (Some 2) (Some 3) None None) (up five)) = Ok [r5] /\
  run db (getAll (Some 2) (Some 2) None None) (up five)
  = (Ok [r3; r4], up five,
     [Issued (Exec (mkQuery FEmpty (Some []) None (Some 2) (Some 2)))]).
Proof.
  destruct (getAll_pagination whole stored_order next_id)
    as (_ & _ & _ & Hpage & Hfive).
  split.
  - apply (Hpage 2 3 None None five []); [lia | lia | reflexivity].
  - apply (Hfive r1 r2 r3 r4 r5 []). reflexivity.
Defined.

Lemma find_pagination_witness :
  find (FWhere (fun d => negb (doc_id d =? id1)%string)) (Some 2) (Some (ArgNum 0)) None None
  = Await (Exec (mkQuery (FWhere (fun d => negb (doc_id d =? id1)%string))
                   None None None (Some 2))) Ret /\
  find FEmpty (Some 2) (Some (ArgNum 3)) None None
  = Await (Exec (mkQuery FEmpty None None (Some 4) (Some 2))) Ret /\
  exists docs rest,
    result_of (run db (find (FWhere (fun d => negb (doc_id d =? id1)%string))
                         (Some 2) (Some (ArgNum 0)) None None) (up five)) = Ok docs /\
    [r2; r3; r4; r5] = docs ++ rest.
Proof.
  destruct (find_pagination whole stored_order next_id)
    as (_ & _ & Hquery & Hprefix & Hpaged).
  split; [apply Hquery; lia|].
  split; [apply (Hpaged FEmpty 2 3 None None); lia|].
  apply (Hprefix (FWhere (fun d => negb (doc_id d =? id1)%string)) 2 0 None None five []);
    [lia | reflexivity].
Defined.

End Evaluated.

(** * Further properties of the operations *)

(** ** On any engine *)

Section Conduct.

Context {S : Type} (E : engine S) (isValid : string -> bool).

(** X1: [create] sends its payload to the storage handle exactly when the
    payload is truthy, and then sends it as it is; it fails with
    [Error('Empty object provided')] exactly when the payload is falsy
    ([undefined], [null], [false], [0], the empty string). *)
Theorem create_guard (data : JS.value) (s : S) :
  trace_of (run E (create data) s)
  = (if JS.truthy data then [Issued (Create data)] else []) /\
  (result_of (run E (create data) s) = Failed (Error "Empty object provided")
   <-> JS.truthy data = false).
Proof.
  destruct (JS.truthy data) eqn:Ht.
  - rewrite (create_truthy _ Ht). cbn.
    destruct (handle E (Create data) s) as [[reason | d] s']; cbn;
      (split; [reflexivity | split; discriminate]).
  - rewrite (create_falsy _ Ht). cbn. split; [reflexivity | split; reflexivity].
Qed.




(** X3: the reading operations, and the unimplemented [createMany], never
    send a request that can change the collection. *)
Theorem reads_never_write (s : S) :
  (forall id p, existsb writes (trace_of (run E (get isValid id p) s)) = false) /\
  (forall limit page sort p,
     existsb writes (trace_of (run E (getAll limit page sort p) s)) = false) /\
  (forall f limit page sort p,
     existsb writes (trace_of (run E (find f limit page sort p) s)) = false) /\
  (forall data, existsb writes (trace_of (run E (createMany data) s)) = false).
Proof.
  repeat apply conj.
  - intros id p. destruct (bad_id isValid id) eqn:Hb.
    + now rewrite (get_invalid _ _ _ Hb).
    + rewrite (get_valid _ _ _ Hb). cbn.
      now destruct (handle E (FindById id (default [] p)) s) as [[reason | d] s'].
  - intros limit page sort p. unfold getAll. cbn.
    match goal with |- context [handle E ?r s] =>
      now destruct (handle E r s) as [[reason | d] s'] end.
  - intros f limit page sort p. unfold find. cbn.
    match goal with |- context [handle E ?r s] =>
      now destruct (handle E r s) as [[reason | d] s'] end.
  - reflexivity.
Qed.

(** X4: every identifier that [get] or [remove] sends to the storage handle
    is the one it was given, non-empty and accepted by the validator. *)
Theorem get_remove_send_only_valid_ids (id : string) (p : option Projection) (s : S) :
  only_valid_ids isValid (trace_of (run E (get isValid id p) s)) = true /\
  only_valid_ids isValid (trace_of (run E (remove isValid id) s)) = true /\
  (forall e, In e (trace_of (run E (get isValid id p) s)) -> ids_sent e = [id]) /\
  (forall e, In e (trace_of (run E (remove isValid id) s)) -> ids_sent e = [id]).
Proof.
  destruct (bad_id isValid id) eqn:Hb.
  - rewrite (get_invalid _ _ _ Hb), (remove_invalid _ _ Hb). cbn.
    repeat split; intros e [].
  - rewrite (get_valid _ _ _ Hb), (remove_valid _ _ Hb). cbn.
    destruct (handle E (FindById id (default [] p)) s) as [[r1 | d1] s1];
      destruct (handle E (FindByIdAndRemove id) s) as [[r2 | d2] s2];
      cbn; rewrite Hb; cbn; repeat split;
      intros e [<- | []]; reflexivity.
Qed.

End Conduct.

(** ** Equal calls *)

(** X5: a projection passed as third argument of [find] (the overload
    [find(filter, limit, arg)]) has no effect at all: the call is the one
    without third argument, for every limit, sort and fifth argument; so on
    the in-memory engine the records it returns are stored records as they
    are, not as that projection would show them. *)
Theorem find_third_argument_projection_ignored
        (f : filter) (limit : option Z) (pr : Projection)
        (sort : option Sort) (p : option Projection) :
  find f limit (Some (ArgProjection pr)) sort p = find f limit None sort p /\
  (forall project order_by gen_id s docs x,
     result_of (run (Memory.mem project order_by gen_id)
                    (find f limit (Some (ArgProjection pr)) None None) s) = Ok docs ->
     In x docs ->
     In x (Memory.records s) /\ Memory.matches f x = true).
Proof.
  split; [reflexivity|].
  intros project order_by gen_id [l fs] docs x Hrun Hin.
  unfold find in Hrun. apply run_exec_inv in Hrun. subst docs.
  apply in_select in Hin; [|reflexivity].
  destruct Hin as (d & Hd & Hm & ->). now split.
Qed.

(** [getAll] with an explicit projection is [find] with the empty filter,
    [getAll]'s own defaults standing for the absent limit and page. *)
Lemma getAll_is_find_all
        (limit page : option Z) (sort : option Sort) (p : Projection) :
  getAll limit page sort (Some p)
  = find FEmpty (Some (default 20 limit)) (Some (ArgNum (default 1 page))) sort (Some p).
Proof. reflexivity. Qed.


(** ** The further properties at concrete inputs *)

Section EvaluatedFurther.

Import Sample.

Lemma create_guard_witness :
  JS.truthy (JS.Num 0) = false /\
  result_of (run db (create (JS.Num 0)) (up five)) = Failed (Error "Empty object provided").
Proof.
  split; [reflexivity|].
  apply (create_guard db (JS.Num 0) (up five)). reflexivity.
Defined.


Lemma get_remove_send_only_valid_ids_witness :
  In (Issued (FindById id1 [])) (trace_of (run db (get objectid_isValid id1 None) (up five))) /\
  ids_sent (Issued (FindById id1 [])) = [id1].
Proof.
  assert (Hin : In (Issued (FindById id1 []))
                   (trace_of (run db (get objectid_isValid id1 None) (up five))))
    by (left; reflexivity).
  split; [exact Hin|].
  destruct (get_remove_send_only_valid_ids db objectid_isValid id1 None (up five))
    as (_ & _ & Hsent & _).
  apply Hsent. exact Hin.
Defined.

Lemma create_then_get_witness :
  result_of (run db (create (JS.Obj [("name", JS.Str "fay")])) (up five))
  = Ok (named id9 "fay") /\
  result_of (run db (get objectid_isValid id9 None)
                 (state_of (run db (create (JS.Obj [("name", JS.Str "fay")])) (up five))))
  = Ok (Some (named id9 "fay")).
Proof.
  assert (Hfresh : forall d, In d (Memory.records (up five)) ->
                             doc_id d <> next_id (Memory.records (up five))).
  { intros d Hin. cbn in Hin.
    destruct Hin as [<-|[<-|[<-|[<-|[<-|[]]]]]]; discriminate. }
  destruct (create_then_get whole stored_order next_id objectid_isValid
              [("name", JS.Str "fay")] None (up five))
    as (Hmade & _ & Hread);
    [discriminate | reflexivity | exact Hfresh | reflexivity |].
  split; [exact Hmade | exact Hread].
Defined.

Lemma sample_ids_unique : NoDup (map doc_id five).
Proof.
  repeat constructor; cbn; intros H;
    repeat (destruct H as [H | H]; [discriminate|]); exact H.
Qed.

Lemma remove_then_get_witness :
  result_of (run db (remove objectid_isValid id3) (up five)) = Ok tt /\
  Memory.records (state_of (run db (remove objectid_isValid id3) (up five)))
  = [r1; r2; r4; r5] /\
  result_of (run db (get objectid_isValid id3 None)
                 (state_of (run db (remove objectid_isValid id3) (up five))))
  = Ok None.
Proof.
  destruct (remove_then_get whole stored_order next_id objectid_isValid id3 None (up five))
    as (Hdone & Hleft & _ & Hread);
    [discriminate | reflexivity | exact sample_ids_unique
     | exists r3; split; [right; right; left; reflexivity | reflexivity]
     | reflexivity |].
  split; [exact Hdone|]. split; [exact Hleft | exact Hread].
Defined.

Lemma removeMany_blanket_delete_rejected_witness :
  [id1; id2] <> [] /\
  result_of (run db (removeMany (Some [id1; id2]))
                 (Memory.mkStore five
                    [None; Some (Memory.mkFault "connection lost" (fun _ => false))]))
  = Failed (Rejected "connection lost") /\
  Memory.records
    (state_of (run db (removeMany (Some [id1; id2]))
                 (Memory.mkStore five
                    [None; Some (Memory.mkFault "connection lost" (fun _ => false))])))
  = [r3; r4; r5].
Proof.
  assert (Hne : [id1; id2] <> []) by discriminate.
  destruct (removeMany_blanket_delete_rejected whole stored_order next_id
              [id1; id2] five (Memory.mkFault "connection lost" (fun _ => false)) [] Hne)
    as (Hfails & _ & Hleft & _).
  split; [exact Hne|]. split; [exact Hfails | exact Hleft].
Defined.

Lemma listing_bounded_by_limit_witness :
  result_of (run db (getAll (Some 2) (Some 3) None None) (up five)) = Ok [r5] /\
  (List.length [r5] <= Z.to_nat 2)%nat.
Proof.
  assert (Hrun : result_of (run db (getAll (Some 2) (Some 3) None None) (up five))
                 = Ok [r5]) by reflexivity.
  split; [exact Hrun|].
  apply (listing_bounded_by_limit whole stored_order next_id
           2 (Some 3) None FEmpty None None (up five) [r5]); [lia|].
  left. exact Hrun.
Defined.

Lemma find_returns_matching_records_witness :
  result_of (run db (find (FIdIn [id2; id4]) (Some 1) (Some (ArgNum 2)) None None) (up five))
  = Ok [r4] /\
  exists d, In d five /\ Memory.matches (FIdIn [id2; id4]) d = true /\ r4 = d.
Proof.
  assert (Hrun : result_of (run db (find (FIdIn [id2; id4]) (Some 1) (Some (ArgNum 2))
                                     None None) (up five)) = Ok [r4]) by reflexivity.
  split; [exact Hrun|].
  apply (find_returns_matching_records whole stored_order next_id
           (FIdIn [id2; id4]) (Some 1) (Some (ArgNum 2)) None (up five) [r4] r4 Hrun).
  left; reflexivity.
Defined.

Lemma nonpositive_page_is_first_page_witness :
  result_of (run db (getAll (Some 2) (Some (-3)) None None) (up five))
  = result_of (run db (getAll (Some 2) (Some 1) None None) (up five)) /\
  result_of (run db (getAll (Some 2) (Some 1) None None) (up five)) = Ok [r1; r2].
Proof.
  split; [|reflexivity].
  apply (nonpositive_page_is_first_page whole stored_order next_id
           2 (-3) FEmpty None None (up five)). lia.
Defined.

Lemma pages_tile_the_collection_witness :
  pages_upto db (up five) 2 None None 3 = five /\
  pages_upto db (up five) 2 None None 2 = [r1; r2; r3; r4].
Proof.
  split.
  - apply (pages_tile_the_collection whole stored_order next_id 2 None None five 3). lia.
  - apply (pages_tile_the_collection whole stored_order next_id 2 None None five 2). lia.
Defined.

Lemma removeMany_then_reads_find_nothing_witness :
  result_of (run db (removeMany (Some [id1])) (up five)) = Ok tt /\
  result_of (run db (getAll (Some 2) (Some 1) None None)
                 (state_of (run db (removeMany (Some [id1])) (up five)))) = Ok [] /\
  result_of (run db (get objectid_isValid id2 None)
                 (state_of (run db (removeMany (Some [id1])) (up five)))) = Ok None.
Proof.
  split; [reflexivity|].
  apply (removeMany_then_reads_find_nothing whole stored_order next_id objectid_isValid
           (Some [id1]) (up five) 2 1 None None id2);
    [reflexivity | reflexivity | lia | discriminate | reflexivity].
Defined.


Lemma find_third_argument_projection_ignored_witness :
  result_of (run (Memory.mem (fun _ d => mkDoc (doc_id d) []) stored_order next_id)
                 (find (FIdIn [id2]) (Some 5) (Some (ArgProjection [("name", false)]))
                    None None) (up five)) = Ok [r2] /\
  In r2 five /\ Memory.matches (FIdIn [id2]) r2 = true.
Proof.
  assert (Hrun : result_of (run (Memory.mem (fun _ d => mkDoc (doc_id d) [])
                                   stored_order next_id)
                                (find (FIdIn [id2]) (Some 5)
                                   (Some (ArgProjection [("name", false)]))
                                   None None) (up five)) = Ok [r2]) by reflexivity.
  split; [exact Hrun|].
  destruct (find_third_argument_projection_ignored (FIdIn [id2]) (Some 5)
              [("name", false)] None None) as [_ Hstored].
  apply (Hstored (fun _ d => mkDoc (doc_id d) []) stored_order next_id
           (up five) [r2] r2 Hrun).
  left; reflexivity.
Defined.

End EvaluatedFurther.
